(** * MwsAnalytics: the report pipeline of [generate_reports.py]

    A shallow embedding of [src/generate_reports.py] and the properties of
    its report-retrieval pipeline.

    The file is modelled as it is written.  In particular:
    - [MWSError] is bound nowhere in the module (line 8 imports only [mws]),
      so evaluating a clause [except MWSError] raises [NameError], with the
      exception being handled as its context; the arms of these clauses
      (the prints, [sys.exit()], the retry) are embedded as written and are
      shown to be unreachable;
    - [request_id] (line 98) is bound nowhere, so the argument of the status
      call raises [NameError] before the call is made;
    - [cursor.commit()] (lines 26 and 57): a sqlite3 cursor has no [commit],
      so the call raises [AttributeError] after the statement before it has
      been executed; an INSERT stays in the open transaction of the
      connection, while CREATE TABLE, run outside a transaction, persists;
    - [main] calls [_process_report] with two arguments where three are
      required (line 147), a [TypeError];
    - [sys.exit()] raises [SystemExit] without a code, [print(msg,
      sys.stderr)] prints both arguments on standard output, an uncaught
      exception ends the process with status 1 and a traceback on standard
      error.

    Two places stop Python before any function of the file can be called:
    the [except] arm of [_open_db] has no body (a syntax error, line 58) and
    the base class [Object] of [Purchase] is unbound (line 15).  The
    functions are modelled as they run when called, the empty arm as [pass]
    and [Purchase] as a plain record of its three attributes.

    Libraries outside the repository (mws, sqlite3, ElementTree, time, sys)
    are modelled by their effect on an explicit world: an event log, and the
    [purchases] table as committed on disk and as seen through the open
    connection. *)

From Stdlib Require Import String List ZArith Bool Lia.
Import ListNotations.
Local Open Scope string_scope.
Local Open Scope Z_scope.
Local Open Scope list_scope.

Set Warnings "-register-all".

(** ** Python values and exceptions *)

(** The values the pipeline handles: [None], strings, and the nested
    dictionaries of a parsed MWS response. *)
Inductive pyobj : Type :=
| PyNone
| PyStr (s : string)
| PyDict (items : list (string * pyobj)).

(** The exceptions of a run.  A [NameError] carries the exception that was
    being handled when it was raised, if any ([__context__]). *)
Inductive exn : Type :=
| MWSError (detail : string)
| KeyError (key : string)
| TypeError (detail : string)
| AttributeError (detail : string)
| NameError (name : string) (context : option exn)
| ParseError
| OperationalError (detail : string)
| SystemExit (code : option Z).

(** How a piece of Python code ends: it returns a value, an exception
    propagates out of it, or the model's loop budget ran out. *)
Inductive outcome (A : Type) : Type :=
| Return (a : A)
| Raise (e : exn)
| OutOfFuel.

Arguments Return {A} a.
Arguments Raise {A} e.
Arguments OutOfFuel {A}.

(** The exit status the interpreter gives the process. *)
Definition exit_status {A : Type} (o : outcome A) : option Z :=
  match o with
  | Return _ => Some 0
  | Raise (SystemExit None) => Some 0
  | Raise (SystemExit (Some n)) => Some n
  | Raise _ => Some 1
  | OutOfFuel => None
  end.

(** ** The world *)

Inductive stream : Type := Stdout | Stderr.

(** What is written to a stream in one go: an argument of [print] (a
    string, or a file object), or the traceback the interpreter prints for
    an uncaught exception, which shows the exception and, before it, the
    exception that was being handled when it was raised. *)
Inductive printed : Type :=
| PText (s : string)
| PFile (f : stream)
| PTraceback (e : exn).

Definition Row : Type := (pyobj * pyobj * pyobj)%type.

Inductive event : Type :=
| ERequestReport (report_type : string) (start_date end_date : Z)
| EGetReportRequestList (requestids : list pyobj)
| EGetReport (report_id : pyobj)
| ESleep (seconds : Z)
| EPrint (file : stream) (args : list printed)
| EFromstring
| EConnect (database : string)
| ECreateTable
| EInsert (values : Row)
| ECommit.

(** The [purchases] table of [mws.db]; [None] when the table does not
    exist.  [committed] is what the file holds, [working] what the open
    connection sees, uncommitted statements included. *)
Record Database : Type := mkDatabase {
  committed : option (list Row);
  working : option (list Row)
}.

Record World : Type := mkWorld {
  log : list event;
  db : Database
}.

Definition emit (e : event) (w : World) : World :=
  mkWorld (log w ++ [e]) (db w).

Definition set_db (d : Database) (w : World) : World :=
  mkWorld (log w) d.

(** ** A state and exception monad for the pipeline *)

Definition M (A : Type) : Type := World -> outcome A * World.

Definition ret {A : Type} (a : A) : M A := fun w => (Return a, w).

Definition bind {A B : Type} (m : M A) (f : A -> M B) : M B :=
  fun w =>
    match m w with
    | (Return a, w') => f a w'
    | (Raise e, w') => (Raise e, w')
    | (OutOfFuel, w') => (OutOfFuel, w')
    end.

Definition raise {A : Type} (e : exn) : M A := fun w => (Raise e, w).

(** [sys.exit()]. *)
Definition sys_exit {A : Type} : M A := raise (SystemExit None).

Definition out_of_fuel {A : Type} : M A := fun w => (OutOfFuel, w).

Definition tell (e : event) : M unit := fun w => (Return tt, emit e w).

Declare Scope py_scope.
Delimit Scope py_scope with py.
Notation "x <- m ;; k" := (bind m (fun x => k))
  (at level 61, m at next level, right associativity) : py_scope.
Notation "m ;; k" := (bind m (fun _ => k))
  (at level 61, right associativity) : py_scope.
Local Open Scope py_scope.

(** [print(a, b, ...)]: without [file=] the text goes to standard output. *)
Definition print (args : list printed) : M unit := tell (EPrint Stdout args).

Definition nl : string := String (Ascii.ascii_of_nat 10) EmptyString.

(** ['...{0}'.format(exc)] for the two messages of the file. *)
Definition format (template : string) (exc : string) : string :=
  (template ++ exc)%string.

(** [str(exc)]. *)
Definition str (e : exn) : string :=
  match e with
  | MWSError detail => detail
  | KeyError key => key
  | TypeError detail => detail
  | AttributeError detail => detail
  | NameError name _ => ("name '" ++ name ++ "' is not defined")%string
  | ParseError => "syntax error"
  | OperationalError detail => detail
  | SystemExit _ => ""
  end.

(** ** Names *)

(** The names the module binds at top level: its imports (lines 1-8), the
    constant, the class and the functions.  Neither [MWSError] nor
    [request_id] is among them, and neither is a builtin. *)
Definition module_names : list string :=
  ["datetime"; "timedelta"; "os"; "sqlite3"; "sys"; "time"; "ET"; "mws";
   "_SLEEP_TIME"; "Purchase"; "_build_mws"; "_open_db"; "_request_report";
   "_poll_for_report"; "_process_report"; "main"].

Definition bound (names : list string) (name : string) : bool :=
  existsb (String.eqb name) names.

(** ** Dictionaries of a parsed response *)

Fixpoint assoc (key : string) (items : list (string * pyobj)) : option pyobj :=
  match items with
  | [] => None
  | (k, v) :: rest => if String.eqb k key then Some v else assoc key rest
  end.

(** [obj[key]]. *)
Definition getitem (obj : pyobj) (key : string) : M pyobj :=
  match obj with
  | PyDict items =>
      match assoc key items with
      | Some v => ret v
      | None => raise (KeyError key)
      end
  | PyStr _ => raise (TypeError "string indices must be integers")
  | PyNone => raise (TypeError "'NoneType' object is not subscriptable")
  end.

(** Reading a name inside a function whose parameters and local variables
    are [locals]: a name the function does not bind, and the module neither
    (it binds modules, functions, the class and the sleep constant only,
    see [module_names]), raises [NameError]. *)
Definition load_name (locals : list (string * pyobj)) (name : string)
  : M pyobj :=
  match assoc name locals with
  | Some v => ret v
  | None => raise (NameError name None)
  end.

(** ** Collaborators outside the repository *)

Inductive result (A : Type) : Type :=
| Ok (a : A)
| Fails (e : exn).

Arguments Ok {A} a.
Arguments Fails {A} e.

(** An element of an [xml.etree.ElementTree] document. *)
Inductive Element : Type :=
| Elem (tag : string) (text : option string) (children : list Element).

(** The body of a report ([response.original]), given by what
    [ET.fromstring] makes of it. *)
Inductive Payload : Type :=
| WellFormed (root : Element)
| NotWellFormed.

(** The remote reporting service: what each call of the mws client yields.
    [request_report_result] gives [response.parsed] of the request,
    [get_report_request_list_result ids n] that of the status call made
    after [n] earlier status calls, [get_report_result] the report body. *)
Record Remote : Type := mkRemote {
  request_report_result : string -> Z -> Z -> result pyobj;
  get_report_request_list_result : list pyobj -> nat -> result pyobj;
  get_report_result : pyobj -> result Payload
}.

(** What a run finds around it: the process environment, the clock (the
    value of the n-th [datetime.now()], in seconds) and the remote service. *)
Record Env : Type := mkEnv {
  environ : string -> option string;
  now : nat -> Z;
  remote : Remote
}.

(** The handle [mws.Reports(...)] returns. *)
Record Reports : Type := mkReports {
  access_key : string;
  secret_key : string;
  account_id : string
}.

(** The handle [sqlite3.connect] returns. *)
Inductive Connection : Type :=
| Conn (database : string).

Definition lift_result {A : Type} (r : result A) : M A :=
  match r with
  | Ok a => ret a
  | Fails e => raise e
  end.

(** What an [except] clause does with an exception: its class expression
    is evaluated first, which may itself raise; then the exception matches
    and the arm runs, or it does not and the exception propagates. *)
Inductive clause (A : Type) : Type :=
| Handles (arm : M A)
| Passes
| ClauseRaises (e : exn).

Arguments Handles {A} arm.
Arguments Passes {A}.
Arguments ClauseRaises {A} e.

(** [try: m except E as exc: arm]. *)
Definition try_except {A : Type} (m : M A) (handler : exn -> clause A)
  : M A :=
  fun w =>
    match m w with
    | (Raise e, w') =>
        match handler e with
        | Handles arm => arm w'
        | Passes => (Raise e, w')
        | ClauseRaises e' => (Raise e', w')
        end
    | r => r
    end.

(** [except MWSError as exc:]: the name [MWSError] is looked up in the
    module. *)
Definition except_MWSError {A : Type} (arm : exn -> M A) (e : exn)
  : clause A :=
  if bound module_names "MWSError"
  then match e with
       | MWSError _ => Handles (arm e)
       | _ => Passes
       end
  else ClauseRaises (NameError "MWSError" (Some e)).

(** [except sqlite3.OperationalError:]: [sqlite3] is imported. *)
Definition except_OperationalError {A : Type} (arm : M A) (e : exn)
  : clause A :=
  if bound module_names "sqlite3"
  then match e with
       | OperationalError _ => Handles arm
       | _ => Passes
       end
  else ClauseRaises (NameError "sqlite3" (Some e)).

Fixpoint status_calls (l : list event) : nat :=
  match l with
  | [] => O
  | EGetReportRequestList _ :: rest => S (status_calls rest)
  | _ :: rest => status_calls rest
  end.

(** *** ElementTree *)

Definition tag_of (e : Element) : string :=
  match e with Elem t _ _ => t end.

Definition children_of (e : Element) : list Element :=
  match e with Elem _ _ c => c end.

Definition children_tagged (t : string) (e : Element) : list Element :=
  filter (fun c => String.eqb (tag_of c) t) (children_of e).

(** The elements a path such as ['Order/AmazonOrderId'] selects, in
    document order; the path is given by its steps. *)
Fixpoint iterfind (path : list string) (from : list Element) : list Element :=
  match path with
  | [] => from
  | t :: rest => iterfind rest (flat_map (children_tagged t) from)
  end.

Definition findall (path : list string) (e : Element) : list Element :=
  iterfind path [e].

Definition find (path : list string) (e : Element) : option Element :=
  hd_error (iterfind path [e]).

(** [x.text] where [x] is the result of a [find]. *)
Definition text_of (x : option Element) : M pyobj :=
  match x with
  | Some (Elem _ (Some s) _) => ret (PyStr s)
  | Some (Elem _ None _) => ret PyNone
  | None => raise (AttributeError "'NoneType' object has no attribute 'text'")
  end.

Definition fromstring (p : Payload) : M Element :=
  tell EFromstring ;;
  match p with
  | WellFormed root => ret root
  | NotWellFormed => raise ParseError
  end.

(** *** sqlite3 *)

Definition connect (database : string) : M Connection :=
  fun w =>
    (Return (Conn database),
     set_db (mkDatabase (committed (db w)) (committed (db w)))
            (emit (EConnect database) w)).

(** [CREATE TABLE purchases (order_id text, purchase_date text, sku text)]:
    the statement opens no transaction, so the new table is in the file as
    soon as it has run. *)
Definition execute_create_table (c : Connection) : M unit :=
  fun w =>
    match working (db w) with
    | Some _ => (Raise (OperationalError "table purchases already exists"), w)
    | None =>
        (Return tt,
         set_db (mkDatabase (Some []) (Some [])) (emit ECreateTable w))
    end.

(** [INSERT INTO purchases VALUES (?, ?, ?)]: the row is added in the
    transaction the statement opens; the file does not hold it until a
    commit. *)
Definition execute_insert (c : Connection) (values : Row) : M unit :=
  fun w =>
    match working (db w) with
    | None => (Raise (OperationalError "no such table: purchases"), w)
    | Some rows =>
        (Return tt,
         set_db (mkDatabase (committed (db w)) (Some (rows ++ [values])))
                (emit (EInsert values) w))
    end.

(** [cursor.commit()]: a cursor has no such attribute. *)
Definition cursor_commit (c : Connection) : M unit :=
  raise (AttributeError "'sqlite3.Cursor' object has no attribute 'commit'").

Definition time_sleep (seconds : Z) : M unit := tell (ESleep seconds).

(** A call that leaves out a required positional argument. *)
Definition call_without {A : Type} (function argument : string) : M A :=
  raise (TypeError (function ++ "() missing 1 required positional argument: '"
                      ++ argument ++ "'")%string).

(** ** The source: [generate_reports.py] *)

Definition _SLEEP_TIME : Z := 3.

Record Purchase : Type := mkPurchase {
  order_id : pyobj;
  purchase_date : pyobj;
  sku : pyobj
}.

Definition write_to_db (self : Purchase) (db_conn : Connection) : M unit :=
  execute_insert db_conn (order_id self, purchase_date self, sku self) ;;
  cursor_commit db_conn.

Definition timedelta_days (d : Z) : Z := d * 86400.

Section Pipeline.

Variable env : Env.

Definition os_environ (name : string) : M string :=
  match environ env name with
  | Some v => ret v
  | None => raise (KeyError name)
  end.

(** The three calls of the mws client. *)
Definition request_report (mws_conn : Reports) (report_type : string)
    (start_date end_date : Z) : M pyobj :=
  tell (ERequestReport report_type start_date end_date) ;;
  lift_result
    (request_report_result (remote env) report_type start_date end_date).

Definition get_report_request_list (mws_conn : Reports)
    (requestids : list pyobj) : M pyobj :=
  fun w =>
    lift_result
      (get_report_request_list_result (remote env) requestids
         (status_calls (log w)))
      (emit (EGetReportRequestList requestids) w).

Definition get_report (mws_conn : Reports) (report_id : pyobj) : M Payload :=
  tell (EGetReport report_id) ;;
  lift_result (get_report_result (remote env) report_id).

Definition _build_mws : M Reports :=
  access_key <- os_environ "MWS_ACCESS_KEY" ;;
  secret_key <- os_environ "MWS_SECRET_KEY" ;;
  account_id <- os_environ "MWS_SELLER_ID" ;;
  ret (mkReports access_key secret_key account_id).

Definition _open_db : M Connection :=
  db <- connect "mws.db" ;;
  try_except
    (execute_create_table db ;; cursor_commit db)
    (except_OperationalError (ret tt)) ;;
  ret db.

Definition _request_report (mws_conn : Reports) : M pyobj :=
  let now_ := now env 0 in
  let start_date := now env 1 - timedelta_days 7 in
  response <-
    try_except
      (request_report mws_conn "_GET_XML_ALL_ORDERS_DATA_BY_ORDER_DATE_"
         start_date now_)
      (except_MWSError (fun exc =>
         print [PText (format ("Error requesting report from MWS."
                                 ++ nl ++ nl)%string (str exc));
                PFile Stderr] ;;
         sys_exit)) ;;
  info <- getitem response "ReportRequestInfo" ;;
  id <- getitem info "ReportRequestId" ;;
  getitem id "value".

(** The [while True] loop of [_poll_for_report], entered with the current
    [retry_count]; it returns the [response] the loop is left with.  The
    argument of the status call reads the name [request_id]; the function
    binds [mws_conn], [report_request_id] and [retry_count]. *)
Fixpoint poll_loop (fuel : nat) (mws_conn : Reports)
    (report_request_id : pyobj) (retry_count : Z) : M pyobj :=
  match fuel with
  | O => out_of_fuel
  | S fuel' =>
      let retry_count := retry_count + 1 in
      try_except
        (request_id <-
           load_name [("report_request_id", report_request_id)]
             "request_id" ;;
         get_report_request_list mws_conn [request_id])
        (except_MWSError (fun exc =>
           print [PText (format ("Error requesting report request list."
                                   ++ nl ++ nl)%string (str exc))] ;;
           if retry_count =? 3
           then time_sleep _SLEEP_TIME ;;
                poll_loop fuel' mws_conn report_request_id retry_count
           else sys_exit))
  end.

Definition _poll_for_report (fuel : nat) (mws_conn : Reports)
    (report_request_id : pyobj) : M pyobj :=
  response <- poll_loop fuel mws_conn report_request_id 0 ;;
  info <- getitem response "ReportRequestInfo" ;;
  id <- getitem info "GeneratedReportId" ;;
  getitem id "value".

(** The [for message in ...] loop of [_process_report]. *)
Fixpoint for_messages (messages : list Element) (db_conn : Connection)
    : M unit :=
  match messages with
  | [] => ret tt
  | message :: rest =>
      order_id <- text_of (find ["Order"; "AmazonOrderId"] message) ;;
      purchase_date <- text_of (find ["Order"; "PurchaseDate"] message) ;;
      sku <- text_of (find ["OrderItem"; "SKU"] message) ;;
      let purchase := mkPurchase order_id purchase_date sku in
      write_to_db purchase db_conn ;;
      for_messages rest db_conn
  end.

Definition _process_report (mws_conn : Reports) (report_id : pyobj)
    (db_conn : Connection) : M unit :=
  response <-
    try_except
      (get_report mws_conn report_id)
      (except_MWSError (fun exc =>
         print [PText (format ("Error requesting report from MWS."
                                 ++ nl ++ nl)%string (str exc));
                PFile Stderr] ;;
         sys_exit)) ;;
  root <- fromstring response ;;
  for_messages (findall ["Message"] root) db_conn.

(** The last line of [main] calls [_process_report(mws_conn, report_id)],
    without the [db_conn] the function requires. *)
Definition main (fuel : nat) : M unit :=
  mws_conn <- _build_mws ;;
  report_request_id <- _request_report mws_conn ;;
  report_id <- _poll_for_report fuel mws_conn report_request_id ;;
  db_conn <- _open_db ;;
  call_without "_process_report" "db_conn".

End Pipeline.

(** ** Observations on a run *)

(** The interpreter running the script: an uncaught exception other than
    [SystemExit] leaves its traceback on standard error; the process ends
    with [exit_status]. *)
Definition run_script (env : Env) (fuel : nat) (w : World)
  : option Z * World :=
  match main env fuel w with
  | (Raise (SystemExit c), w') => (exit_status (@Raise unit (SystemExit c)), w')
  | (Raise e, w') =>
      (exit_status (@Raise unit e), emit (EPrint Stderr [PTraceback e]) w')
  | (o, w') => (exit_status o, w')
  end.

(** What was printed on a stream, one entry per [print]. *)
Fixpoint printed_on (f : stream) (l : list event) : list (list printed) :=
  match l with
  | [] => []
  | EPrint Stdout args :: rest =>
      match f with
      | Stdout => args :: printed_on f rest
      | Stderr => printed_on f rest
      end
  | EPrint Stderr args :: rest =>
      match f with
      | Stdout => printed_on f rest
      | Stderr => args :: printed_on f rest
      end
  | _ :: rest => printed_on f rest
  end.

(** The waits of a run, in seconds. *)
Fixpoint sleeps (l : list event) : list Z :=
  match l with
  | [] => []
  | ESleep s :: rest => s :: sleeps rest
  | _ :: rest => sleeps rest
  end.

(** The calls that fetch or parse a report. *)
Fixpoint parser_calls (l : list event) : nat :=
  match l with
  | [] => O
  | EGetReport _ :: rest => S (parser_calls rest)
  | EFromstring :: rest => S (parser_calls rest)
  | _ :: rest => parser_calls rest
  end.

(** The events on the local store. *)
Definition is_db_event (e : event) : bool :=
  match e with
  | EConnect _ | ECreateTable | EInsert _ | ECommit => true
  | _ => false
  end.

Definition db_events (l : list event) : list event := filter is_db_event l.

(** The row [write_to_db] inserts for a record. *)
Definition row_of (p : Purchase) : Row :=
  (order_id p, purchase_date p, sku p).

(** The text of the element a path selects in a message, when there is
    one. *)
Definition field (path : list string) (message : Element) : option pyobj :=
  match find path message with
  | Some (Elem _ (Some s) _) => Some (PyStr s)
  | Some (Elem _ None _) => Some PyNone
  | None => None
  end.

(** A message from which the loop body builds a record, and the record. *)
Definition purchase_of (message : Element) : option Purchase :=
  match field ["Order"; "AmazonOrderId"] message,
        field ["Order"; "PurchaseDate"] message,
        field ["OrderItem"; "SKU"] message with
  | Some o, Some d, Some s => Some (mkPurchase o d s)
  | _, _, _ => None
  end.

Definition reaches_open_db (env : Env) (fuel : nat) (w : World) : Prop :=
  exists mws_conn w0 report_request_id w1 report_id w2,
    _build_mws env w = (Return mws_conn, w0) /\
    _request_report env mws_conn w0 = (Return report_request_id, w1) /\
    _poll_for_report env fuel mws_conn report_request_id w1
      = (Return report_id, w2).

(** The process environment holds the three credentials [_build_mws]
    reads. *)
Definition has_credentials (env : Env) : bool :=
  match environ env "MWS_ACCESS_KEY",
        environ env "MWS_SECRET_KEY",
        environ env "MWS_SELLER_ID" with
  | Some _, Some _, Some _ => true
  | _, _, _ => false
  end.

(** A computation that leaves the local store alone: the database is as it
    was and no store event is logged. *)
Definition quiet {A : Type} (m : M A) : Prop :=
  forall w,
    db (snd (m w)) = db w /\
    db_events (log (snd (m w))) = db_events (log w).

(** The value of [obj[k1][k2]...], or the exception the first failing
    subscript raises. *)
Fixpoint subscript (obj : pyobj) (keys : list string) : result pyobj :=
  match keys with
  | [] => Ok obj
  | k :: rest =>
      match obj with
      | PyDict items =>
          match assoc k items with
          | Some v => subscript v rest
          | None => Fails (KeyError k)
          end
      | PyStr _ => Fails (TypeError "string indices must be integers")
      | PyNone => Fails (TypeError "'NoneType' object is not subscriptable")
      end
  end.

(** The rows of the [purchases] table, none when the table is absent. *)
Definition rows_or_empty (table : option (list Row)) : list Row :=
  match table with
  | Some rows => rows
  | None => []
  end.

(** The store events of [_open_db]: the table is created only when the
    file has none. *)
Definition open_db_events (table : option (list Row)) : list event :=
  EConnect "mws.db" ::
  match table with
  | Some _ => []
  | None => [ECreateTable]
  end.

(** What [_open_db] ends with: it returns the connection when the table
    exists, and fails at [cursor.commit()] after creating it otherwise. *)
Definition open_db_outcome (table : option (list Row)) : outcome Connection :=
  match table with
  | Some _ => Return (Conn "mws.db")
  | None =>
      Raise (AttributeError "'sqlite3.Cursor' object has no attribute 'commit'")
  end.

Definition report_type : string := "_GET_XML_ALL_ORDERS_DATA_BY_ORDER_DATE_".

Definition request_info : list string :=
  ["ReportRequestInfo"; "ReportRequestId"; "value"].

(** The exception every turn of the poll loop ends with. *)
Definition poll_error : exn :=
  NameError "MWSError" (Some (NameError "request_id" None)).

(** ** Scenarios *)

Module Scenario.

Inductive Status : Type :=
| SUBMITTED
| IN_PROGRESS
| DONE (generatedReportId : string)
| CANCELLED.

Definition value (s : string) : pyobj := PyDict [("value", PyStr s)].

(** [response.parsed] of a status call for request ["REQ1"]. *)
Definition status_response (s : Status) : pyobj :=
  PyDict
    [("ReportRequestInfo",
      PyDict
        (("ReportRequestId", value "REQ1") ::
         match s with
         | SUBMITTED => [("ReportProcessingStatus", value "_SUBMITTED_")]
         | IN_PROGRESS => [("ReportProcessingStatus", value "_IN_PROGRESS_")]
         | CANCELLED => [("ReportProcessingStatus", value "_CANCELLED_")]
         | DONE id =>
             [("ReportProcessingStatus", value "_DONE_");
              ("GeneratedReportId", value id)]
         end))].

Definition request_response : pyobj :=
  PyDict [("ReportRequestInfo", PyDict [("ReportRequestId", value "REQ1")])].

Definition credentials (name : string) : option string :=
  Some "k".

Definition elem (tag text : string) : Element := Elem tag (Some text) [].

Definition message (order date : string) (item : list Element) : Element :=
  Elem "Message" None
    [Elem "Order" None
       [elem "AmazonOrderId" order; elem "PurchaseDate" date];
     Elem "OrderItem" None item].

Definition envelope (messages : list Element) : Element :=
  Elem "AmazonEnvelope" None
    (Elem "Header" None [elem "DocumentVersion" "1.00"] :: messages).

(** Two well-formed messages. *)
Definition two_orders : Element :=
  envelope
    [message "A-1" "2023-01-01T00:00:00" [elem "SKU" "SKU1"];
     message "A-2" "2023-01-02T00:00:00" [elem "SKU" "SKU2"]].


(** A service that answers the n-th status call by the n-th entry of
    [script], and by [after] once the script is used up. *)
Definition service (request : result pyobj)
    (script : list (result Status)) (after : result Status)
    (report : result Payload) : Remote :=
  mkRemote
    (fun _ _ _ => request)
    (fun _ n =>
       match nth n script after with
       | Ok s => Ok (status_response s)
       | Fails e => Fails e
       end)
    (fun _ => report).

Definition env_of (r : Remote) : Env :=
  mkEnv credentials (fun n => 1700000000 + Z.of_nat n) r.

(** [requestReport] is refused. *)
Definition auth_failure : Env :=
  env_of (service (Fails (MWSError "403 Forbidden")) [] (Ok IN_PROGRESS)
            (Ok (WellFormed two_orders))).

(** Every status call fails. *)
Definition status_always_fails : Env :=
  env_of (service (Ok request_response) []
            (Fails (MWSError "503 Service Unavailable"))
            (Ok (WellFormed two_orders))).

(** SUBMITTED, IN_PROGRESS, IN_PROGRESS, DONE. *)
Definition done_at_fourth_poll : Env :=
  env_of (service (Ok request_response)
            [Ok SUBMITTED; Ok IN_PROGRESS; Ok IN_PROGRESS; Ok (DONE "RPT1")]
            (Ok (DONE "RPT1"))
            (Ok (WellFormed two_orders))).

(** IN_PROGRESS for ever. *)
Definition never_done : Env :=
  env_of (service (Ok request_response) [] (Ok IN_PROGRESS)
            (Ok (WellFormed two_orders))).

(** The first poll is DONE; the report is the given one. *)
Definition done_at_once (report : Element) : Env :=
  env_of (service (Ok request_response) [] (Ok (DONE "RPT1"))
            (Ok (WellFormed report))).

Definition conn : Reports := mkReports "k" "k" "k".

Definition db_conn : Connection := Conn "mws.db".

(** A first run: nothing logged, no [purchases] table yet. *)
Definition fresh : World := mkWorld [] (mkDatabase None None).

(** After [_open_db] on an empty store. *)
Definition opened : World :=
  mkWorld [] (mkDatabase (Some []) (Some [])).

Definition a1 : Purchase :=
  mkPurchase (PyStr "A-1") (PyStr "2023-01-01T00:00:00") (PyStr "SKU1").

Definition a2 : Purchase :=
  mkPurchase (PyStr "A-2") (PyStr "2023-01-02T00:00:00") (PyStr "SKU2").

End Scenario.

(** ** Basic facts about the monad *)

Lemma bind_Return {A B : Type} (m : M A) (f : A -> M B) (w w' : World) (a : A) :
  m w = (Return a, w') -> bind m f w = f a w'.
Proof. intros H. unfold bind. rewrite H. reflexivity. Qed.

Lemma bind_Raise {A B : Type} (m : M A) (f : A -> M B) (w w' : World) (e : exn) :
  m w = (Raise e, w') -> bind m f w = (Raise e, w').
Proof. intros H. unfold bind. rewrite H. reflexivity. Qed.

Lemma bind_OutOfFuel {A B : Type} (m : M A) (f : A -> M B) (w w' : World) :
  m w = (OutOfFuel, w') -> bind m f w = (OutOfFuel, w').
Proof. intros H. unfold bind. rewrite H. reflexivity. Qed.

Lemma world_eta (w : World) : mkWorld (log w ++ []) (db w) = w.
Proof. rewrite app_nil_r. destruct w; reflexivity. Qed.

(** Neither of the two names is bound. *)
Lemma unbound_names :
  bound module_names "MWSError" = false /\
  bound module_names "request_id" = false /\
  bound module_names "sqlite3" = true.
Proof. repeat split. Qed.

(** ** The log *)

Lemma status_calls_app (l1 l2 : list event) :
  status_calls (l1 ++ l2) = (status_calls l1 + status_calls l2)%nat.
Proof.
  induction l1 as [| e l1 IH]; [reflexivity |].
  destruct e; simpl; rewrite IH; reflexivity.
Qed.

Lemma parser_calls_app (l1 l2 : list event) :
  parser_calls (l1 ++ l2) = (parser_calls l1 + parser_calls l2)%nat.
Proof.
  induction l1 as [| e l1 IH]; [reflexivity |].
  destruct e; simpl; rewrite IH; reflexivity.
Qed.

Lemma sleeps_app (l1 l2 : list event) :
  sleeps (l1 ++ l2) = sleeps l1 ++ sleeps l2.
Proof.
  induction l1 as [| e l1 IH]; [reflexivity |].
  destruct e; simpl; rewrite IH; reflexivity.
Qed.

Lemma printed_on_app (f : stream) (l1 l2 : list event) :
  printed_on f (l1 ++ l2) = printed_on f l1 ++ printed_on f l2.
Proof.
  induction l1 as [| e l1 IH]; [reflexivity |].
  destruct e; simpl; try apply IH.
  destruct file, f; simpl; rewrite IH; reflexivity.
Qed.

Lemma db_events_app (l1 l2 : list event) :
  db_events (l1 ++ l2) = db_events l1 ++ db_events l2.
Proof. apply filter_app. Qed.

(** ** The store *)

(** On a connection that sees the table, [write_to_db] executes the INSERT
    and then fails at [cursor.commit()]: the row is in the connection's
    view, not in the file. *)
Lemma write_to_db_spec (p : Purchase) (c : Connection) (w : World) rows :
  working (db w) = Some rows ->
  write_to_db p c w
  = (Raise (AttributeError "'sqlite3.Cursor' object has no attribute 'commit'"),
     mkWorld (log w ++ [EInsert (row_of p)])
             (mkDatabase (committed (db w)) (Some (rows ++ [row_of p])))).
Proof.
  intros H. unfold write_to_db, bind, execute_insert, cursor_commit.
  rewrite H. reflexivity.
Qed.

Lemma write_to_db_no_table (p : Purchase) (c : Connection) (w : World) :
  working (db w) = None ->
  write_to_db p c w
  = (Raise (OperationalError "no such table: purchases"), w).
Proof.
  intros H. unfold write_to_db, bind, execute_insert. rewrite H. reflexivity.
Qed.

(** [write_to_db] never returns and never changes the committed table. *)
Lemma write_to_db_raises (p : Purchase) (c : Connection) (w : World) :
  (exists d, fst (write_to_db p c w) = Raise (AttributeError d) \/
             fst (write_to_db p c w) = Raise (OperationalError d)) /\
  committed (db (snd (write_to_db p c w))) = committed (db w).
Proof.
  destruct (working (db w)) as [rows |] eqn:H.
  - rewrite (write_to_db_spec p c w rows H). split; [| reflexivity].
    eexists. left. reflexivity.
  - rewrite (write_to_db_no_table p c w H). split; [| reflexivity].
    eexists. right. reflexivity.
Qed.

Lemma open_db_eq (w : World) :
  _open_db w
  = (open_db_outcome (committed (db w)),
     mkWorld (log w ++ open_db_events (committed (db w)))
             (mkDatabase (Some (rows_or_empty (committed (db w))))
                         (Some (rows_or_empty (committed (db w)))))).
Proof.
  unfold _open_db, bind, connect, try_except, execute_create_table,
    cursor_commit.
  cbn [db set_db working committed emit log].
  destruct (committed (db w)) as [rows |]; simpl.
  - reflexivity.
  - unfold set_db, emit, open_db_events. simpl.
    rewrite <- !app_assoc. reflexivity.
Qed.

(** ** The report loop *)

Lemma text_of_field (path : list string) (message : Element) :
  text_of (find path message)
  = match field path message with
    | Some v => ret v
    | None => raise (AttributeError "'NoneType' object has no attribute 'text'")
    end.
Proof.
  unfold field. destruct (find path message) as [[t [s |] c] |]; reflexivity.
Qed.

(** On a message with its three fields the loop body is one [write_to_db],
    which does not return. *)
Lemma for_messages_cons_complete
    (message : Element) rest c (w : World) (p : Purchase) :
  purchase_of message = Some p ->
  for_messages (message :: rest) c w
  = bind (write_to_db p c) (fun _ => for_messages rest c) w.
Proof.
  unfold purchase_of. intros H.
  cbn [for_messages]. rewrite !text_of_field.
  destruct (field ["Order"; "AmazonOrderId"] message) as [o |]; [| discriminate].
  destruct (field ["Order"; "PurchaseDate"] message) as [d |]; [| discriminate].
  destruct (field ["OrderItem"; "SKU"] message) as [s |]; [| discriminate].
  injection H as <-. reflexivity.
Qed.

(** A message without one of its fields stops the loop with the
    [AttributeError] of [None.text], before any statement is executed. *)
Lemma for_messages_cons_incomplete (message : Element) rest c (w : World) :
  purchase_of message = None ->
  for_messages (message :: rest) c w
  = (Raise (AttributeError "'NoneType' object has no attribute 'text'"), w).
Proof.
  unfold purchase_of. intros H.
  cbn [for_messages]. rewrite !text_of_field.
  destruct (field ["Order"; "AmazonOrderId"] message) as [o |];
    [| reflexivity].
  destruct (field ["Order"; "PurchaseDate"] message) as [d |];
    [| reflexivity].
  destruct (field ["OrderItem"; "SKU"] message) as [s |];
    [discriminate | reflexivity].
Qed.

(** The loop never gets past its first message, and never changes the
    committed table. *)
Lemma for_messages_raises (message : Element) rest c (w : World) :
  (exists d, fst (for_messages (message :: rest) c w)
             = Raise (AttributeError d) \/
             fst (for_messages (message :: rest) c w)
             = Raise (OperationalError d)) /\
  committed (db (snd (for_messages (message :: rest) c w)))
  = committed (db w).
Proof.
  destruct (purchase_of message) as [p |] eqn:Hp.
  - rewrite (for_messages_cons_complete message rest c w p Hp).
    destruct (write_to_db_raises p c w) as [[d Hd] Hc].
    unfold bind.
    destruct (write_to_db p c w) as [[a | e |] w'];
      cbn [fst snd] in *.
    + destruct Hd; discriminate.
    + split; [| exact Hc]. exists d. exact Hd.
    + destruct Hd; discriminate.
  - rewrite (for_messages_cons_incomplete message rest c w Hp).
    split; [| reflexivity]. eexists. left. reflexivity.
Qed.

(** What [_process_report] does up to its loop, on a report that parses. *)
Lemma process_report_loop (env : Env) conn report_id c (w : World) root :
  get_report_result (remote env) report_id = Ok (WellFormed root) ->
  _process_report env conn report_id c w
  = for_messages (findall ["Message"] root) c
      (mkWorld (log w ++ [EGetReport report_id; EFromstring]) (db w)).
Proof.
  intros H. unfold _process_report, try_except, get_report, fromstring.
  unfold bind at 1. unfold bind at 1. unfold tell. rewrite H. simpl.
  unfold bind at 1. unfold bind at 1. unfold tell. simpl.
  unfold emit. simpl. rewrite <- app_assoc. reflexivity.
Qed.

(** A fetch that raises: the clause [except MWSError] raises [NameError]
    in its turn. *)
Lemma process_report_fetch_eq (env : Env) conn report_id c (w : World) e :
  get_report_result (remote env) report_id = Fails e ->
  _process_report env conn report_id c w
  = (Raise (NameError "MWSError" (Some e)),
     mkWorld (log w ++ [EGetReport report_id]) (db w)).
Proof.
  intros H. unfold _process_report.
  erewrite bind_Raise; [reflexivity |].
  unfold try_except, get_report, bind, tell. rewrite H. reflexivity.
Qed.

Lemma process_report_parse_eq (env : Env) conn report_id c (w : World) :
  get_report_result (remote env) report_id = Ok NotWellFormed ->
  _process_report env conn report_id c w
  = (Raise ParseError,
     mkWorld (log w ++ [EGetReport report_id; EFromstring]) (db w)).
Proof.
  intros H. unfold _process_report, try_except, get_report, fromstring.
  unfold bind, tell. rewrite H. simpl.
  unfold emit. simpl. rewrite <- app_assoc. reflexivity.
Qed.

(** ** The request and the poller *)

Lemma getitem_subscripts (response : pyobj) (a b c : string) (w : World) :
  (info <- getitem response a ;; id <- getitem info b ;; getitem id c) w
  = lift_result (subscript response [a; b; c]) w.
Proof.
  unfold bind. cbn [subscript].
  destruct response as [| s | items]; try reflexivity. cbn [getitem].
  destruct (assoc a items) as [v1 |]; [| reflexivity]. cbn [ret].
  destruct v1 as [| s1 | items1]; try reflexivity. cbn [getitem].
  destruct (assoc b items1) as [v2 |]; [| reflexivity]. cbn [ret].
  destruct v2 as [| s2 | items2]; try reflexivity. cbn [getitem].
  destruct (assoc c items2) as [v3 |]; reflexivity.
Qed.

(** A subscript fails with [KeyError] or [TypeError] only. *)
Lemma subscript_error (obj : pyobj) (keys : list string) (e : exn) :
  subscript obj keys = Fails e ->
  (exists k, e = KeyError k) \/ (exists d, e = TypeError d).
Proof.
  revert obj. induction keys as [| k rest IH]; intros obj H.
  - discriminate.
  - simpl in H. destruct obj as [| s | items].
    + injection H as <-. right. eexists. reflexivity.
    + injection H as <-. right. eexists. reflexivity.
    + destruct (assoc k items) as [v |].
      * apply (IH v H).
      * injection H as <-. left. eexists. reflexivity.
Qed.

(** The call inside the [try] of [_request_report], when it is answered. *)
Lemma request_report_call (env : Env) conn (w : World) (response : pyobj) :
  request_report_result (remote env) report_type
    (now env 1 - 7 * 86400) (now env 0)
  = Ok response ->
  try_except
    (request_report env conn "_GET_XML_ALL_ORDERS_DATA_BY_ORDER_DATE_"
       (now env 1 - timedelta_days 7) (now env 0))
    (except_MWSError (fun exc =>
       print [PText (format ("Error requesting report from MWS."
                               ++ nl ++ nl)%string (str exc));
              PFile Stderr] ;;
       sys_exit)) w
  = (Return response,
     mkWorld (log w ++ [ERequestReport report_type
                          (now env 1 - 7 * 86400) (now env 0)])
             (db w)).
Proof.
  intros H. unfold try_except, request_report, bind, tell.
  change (timedelta_days 7) with (7 * 86400).
  unfold report_type in H. rewrite H. reflexivity.
Qed.

(** A request that raises: the clause [except MWSError] raises [NameError]
    in its turn, with the exception of the call as its context. *)
Lemma request_report_fails_eq (env : Env) conn (w : World) (e : exn) :
  request_report_result (remote env) report_type
    (now env 1 - 7 * 86400) (now env 0)
  = Fails e ->
  _request_report env conn w
  = (Raise (NameError "MWSError" (Some e)),
     mkWorld (log w ++ [ERequestReport report_type
                          (now env 1 - 7 * 86400) (now env 0)])
             (db w)).
Proof.
  intros H. unfold _request_report.
  erewrite bind_Raise; [reflexivity |].
  unfold try_except, request_report, bind, tell.
  change (timedelta_days 7) with (7 * 86400).
  unfold report_type in H. rewrite H. reflexivity.
Qed.

Lemma request_report_ok_eq (env : Env) conn (w : World) (response : pyobj) :
  request_report_result (remote env) report_type
    (now env 1 - 7 * 86400) (now env 0)
  = Ok response ->
  _request_report env conn w
  = (match subscript response request_info with
     | Ok id => Return id
     | Fails e => Raise e
     end,
     mkWorld (log w ++ [ERequestReport report_type
                          (now env 1 - 7 * 86400) (now env 0)])
             (db w)).
Proof.
  intros H. unfold _request_report.
  pose proof (request_report_call env conn w response H) as E.
  rewrite (bind_Return _ _ _ _ _ E).
  rewrite getitem_subscripts. unfold request_info.
  destruct (subscript response
              ["ReportRequestInfo"; "ReportRequestId"; "value"]);
    reflexivity.
Qed.

(** Every turn of the poll loop ends before the status call: reading
    [request_id] raises [NameError], and the clause [except MWSError]
    raises [NameError] in its turn.  The world is as it was. *)
Lemma poll_loop_turn (env : Env) fuel conn rid rc (w : World) :
  poll_loop env (S fuel) conn rid rc w = (Raise poll_error, w).
Proof. reflexivity. Qed.

Lemma poll_for_report_eq (env : Env) fuel conn rid (w : World) :
  _poll_for_report env (S fuel) conn rid w = (Raise poll_error, w).
Proof.
  unfold _poll_for_report.
  apply bind_Raise. apply poll_loop_turn.
Qed.

Lemma poll_for_report_never_returns (env : Env) fuel conn rid (w : World) v w' :
  _poll_for_report env fuel conn rid w <> (Return v, w').
Proof.
  destruct fuel as [| fuel].
  - unfold _poll_for_report, bind. simpl. discriminate.
  - rewrite poll_for_report_eq. discriminate.
Qed.

(** ** Computations that leave the store alone *)

Lemma quiet_ret {A : Type} (a : A) : quiet (ret a).
Proof. intros w. split; reflexivity. Qed.

Lemma quiet_raise {A : Type} (e : exn) : quiet (@raise A e).
Proof. intros w. split; reflexivity. Qed.

Lemma quiet_sys_exit {A : Type} : quiet (@sys_exit A).
Proof. apply quiet_raise. Qed.

Lemma quiet_out_of_fuel {A : Type} : quiet (@out_of_fuel A).
Proof. intros w. split; reflexivity. Qed.

Lemma quiet_tell (e : event) : is_db_event e = false -> quiet (tell e).
Proof.
  intros He w. split; [reflexivity |].
  simpl. rewrite db_events_app. simpl. unfold db_events at 2. simpl.
  rewrite He. apply app_nil_r.
Qed.

Lemma quiet_bind {A B : Type} (m : M A) (f : A -> M B) :
  quiet m -> (forall a, quiet (f a)) -> quiet (bind m f).
Proof.
  intros Hm Hf w. unfold bind. specialize (Hm w).
  destruct (m w) as [[a | e |] w']; simpl in Hm; try exact Hm.
  destruct (Hf a w') as [H1 H2]. destruct Hm as [H3 H4].
  split; congruence.
Qed.

Lemma quiet_try_except {A : Type} (m : M A) (handler : exn -> clause A) :
  quiet m ->
  (forall e arm, handler e = Handles arm -> quiet arm) ->
  quiet (try_except m handler).
Proof.
  intros Hm Hh w. unfold try_except. specialize (Hm w).
  destruct (m w) as [[a | e |] w']; simpl in Hm; try exact Hm.
  destruct (handler e) as [arm | | e'] eqn:He; try exact Hm.
  destruct (Hh e arm He w') as [H1 H2]. destruct Hm as [H3 H4].
  split; congruence.
Qed.

Lemma quiet_except_MWSError {A : Type} (m : M A) (arm : exn -> M A) :
  quiet m -> (forall exc, quiet (arm exc)) ->
  quiet (try_except m (except_MWSError arm)).
Proof.
  intros Hm Hh. apply quiet_try_except; [exact Hm |].
  intros e k He. unfold except_MWSError in He.
  destruct (bound module_names "MWSError"); [| discriminate].
  destruct e; try discriminate.
  injection He as <-. apply Hh.
Qed.

Lemma quiet_lift_result {A : Type} (r : result A) : quiet (lift_result r).
Proof. destruct r; [apply quiet_ret | apply quiet_raise]. Qed.

Lemma quiet_getitem (obj : pyobj) (key : string) : quiet (getitem obj key).
Proof.
  destruct obj as [| s | items]; simpl;
    try apply quiet_raise.
  destruct (assoc key items); [apply quiet_ret | apply quiet_raise].
Qed.

Lemma quiet_load_name locals (name : string) : quiet (load_name locals name).
Proof.
  unfold load_name.
  destruct (assoc name locals); [apply quiet_ret | apply quiet_raise].
Qed.

Lemma quiet_print (args : list printed) : quiet (print args).
Proof. apply quiet_tell. reflexivity. Qed.

Lemma quiet_time_sleep (seconds : Z) : quiet (time_sleep seconds).
Proof. apply quiet_tell. reflexivity. Qed.

Lemma quiet_os_environ (env : Env) (name : string) :
  quiet (os_environ env name).
Proof.
  unfold os_environ. destruct (environ env name);
    [apply quiet_ret | apply quiet_raise].
Qed.

Lemma quiet_get_report_request_list (env : Env) conn ids :
  quiet (get_report_request_list env conn ids).
Proof.
  intros w. unfold get_report_request_list.
  destruct (get_report_request_list_result (remote env) ids
              (status_calls (log w))); simpl;
    (split; [reflexivity |]);
    rewrite db_events_app; apply app_nil_r.
Qed.

Create HintDb quiet.
#[local] Hint Resolve quiet_ret quiet_raise quiet_sys_exit quiet_out_of_fuel
  quiet_bind quiet_except_MWSError quiet_lift_result quiet_getitem
  quiet_load_name quiet_print quiet_time_sleep quiet_os_environ
  quiet_get_report_request_list : quiet.

Lemma quiet_build_mws (env : Env) : quiet (_build_mws env).
Proof. unfold _build_mws. auto 10 with quiet. Qed.

Lemma quiet_request_report (env : Env) conn t s e :
  quiet (request_report env conn t s e).
Proof.
  unfold request_report. apply quiet_bind; [| auto with quiet].
  apply quiet_tell. reflexivity.
Qed.

Lemma quiet__request_report (env : Env) conn : quiet (_request_report env conn).
Proof.
  unfold _request_report.
  apply quiet_bind; [| auto 10 with quiet].
  apply quiet_except_MWSError; [apply quiet_request_report |].
  auto with quiet.
Qed.

Lemma quiet_poll_loop (env : Env) conn rid :
  forall fuel retry_count, quiet (poll_loop env fuel conn rid retry_count).
Proof.
  induction fuel as [| fuel IH]; intros retry_count; cbn [poll_loop].
  - apply quiet_out_of_fuel.
  - apply quiet_except_MWSError; [auto with quiet |].
    intros exc. apply quiet_bind; [apply quiet_print |]. intros _.
    destruct (retry_count + 1 =? 3); auto with quiet.
Qed.

Lemma quiet_poll_for_report (env : Env) fuel conn rid :
  quiet (_poll_for_report env fuel conn rid).
Proof.
  unfold _poll_for_report.
  apply quiet_bind; [apply quiet_poll_loop | auto 10 with quiet].
Qed.

(** ** The stages of [main] *)

Lemma build_mws_ok (env : Env) :
  has_credentials env = true ->
  exists conn, forall w, _build_mws env w = (Return conn, w).
Proof.
  unfold has_credentials, _build_mws, os_environ.
  destruct (environ env "MWS_ACCESS_KEY") as [a |]; [| discriminate].
  destruct (environ env "MWS_SECRET_KEY") as [s |]; [| discriminate].
  destruct (environ env "MWS_SELLER_ID") as [i |]; [| discriminate].
  intros _. exists (mkReports a s i). reflexivity.
Qed.

Lemma build_mws_missing (env : Env) :
  has_credentials env = false ->
  exists key,
    environ env key = None /\
    forall w, _build_mws env w = (Raise (KeyError key), w).
Proof.
  unfold has_credentials, _build_mws, os_environ, bind. intros H.
  destruct (environ env "MWS_ACCESS_KEY") as [a |] eqn:Ha.
  - destruct (environ env "MWS_SECRET_KEY") as [s |] eqn:Hs.
    + destruct (environ env "MWS_SELLER_ID") as [i |] eqn:Hi;
        [discriminate |].
      exists "MWS_SELLER_ID". split; [exact Hi |]. reflexivity.
    + exists "MWS_SECRET_KEY". split; [exact Hs |]. reflexivity.
  - exists "MWS_ACCESS_KEY". split; [exact Ha |]. reflexivity.
Qed.

(** When [requestReport] raises, [main] ends in [_request_report]. *)
Lemma main_request_fails (env : Env) fuel (w : World) (e : exn) :
  has_credentials env = true ->
  (forall t s d, request_report_result (remote env) t s d = Fails e) ->
  main env fuel w
  = (Raise (NameError "MWSError" (Some e)),
     mkWorld (log w ++ [ERequestReport "_GET_XML_ALL_ORDERS_DATA_BY_ORDER_DATE_"
                          (now env 1 - timedelta_days 7) (now env 0)])
             (db w)).
Proof.
  intros Hc Hr. destruct (build_mws_ok env Hc) as [conn Hconn].
  unfold main.
  erewrite bind_Return by apply Hconn.
  erewrite bind_Raise; [reflexivity |].
  apply (request_report_fails_eq env conn w e (Hr _ _ _)).
Qed.

(** Every run of [main] ends with an uncaught exception that is not
    [SystemExit], having logged at most the request. *)
Lemma main_ends (env : Env) (fuel : nat) (w : World) :
  exists e l,
    main env (S fuel) w = (Raise e, mkWorld (log w ++ l) (db w)) /\
    (forall c, e <> SystemExit c) /\
    (l = [] \/
     l = [ERequestReport report_type (now env 1 - 7 * 86400) (now env 0)]).
Proof.
  unfold main.
  destruct (has_credentials env) eqn:Hc.
  - destruct (build_mws_ok env Hc) as [conn Hconn].
    erewrite bind_Return by apply Hconn.
    destruct (request_report_result (remote env) report_type
                (now env 1 - 7 * 86400) (now env 0)) as [response | e] eqn:Hr.
    + pose proof (request_report_ok_eq env conn w response Hr) as E.
      destruct (subscript response request_info) as [id | e] eqn:Hs.
      * erewrite bind_Return by exact E.
        erewrite bind_Raise by apply poll_for_report_eq.
        do 2 eexists. split; [reflexivity |].
        split; [discriminate | right; reflexivity].
      * erewrite bind_Raise by exact E.
        do 2 eexists. split; [reflexivity |].
        split; [| right; reflexivity].
        destruct (subscript_error _ _ _ Hs) as [[k ->] | [d ->]];
          discriminate.
    + erewrite bind_Raise
        by apply (request_report_fails_eq env conn w e Hr).
      do 2 eexists. split; [reflexivity |].
      split; [discriminate | right; reflexivity].
  - destruct (build_mws_missing env Hc) as (key & _ & Hkey).
    erewrite bind_Raise by apply Hkey.
    exists (KeyError key), []. rewrite world_eta.
    split; [reflexivity |]. split; [discriminate | left; reflexivity].
Qed.

(** Either [main] stops before [_open_db], with the database as it was,
    or it continues with [_open_db] from a world whose database is
    unchanged. *)
Lemma main_cases (env : Env) (fuel : nat) (w : World) :
  db (snd (main env fuel w)) = db w \/
  exists w2,
    db w2 = db w /\
    main env fuel w
    = (db_conn <- _open_db ;; call_without "_process_report" "db_conn") w2.
Proof.
  unfold main.
  pose proof (quiet_build_mws env w) as Q0.
  destruct (_build_mws env w) as [[conn | e |] w0] eqn:Hb;
    cbn [snd] in Q0; destruct Q0 as [Q0 _];
    [| left; erewrite bind_Raise by exact Hb; exact Q0
     | left; erewrite bind_OutOfFuel by exact Hb; exact Q0].
  erewrite bind_Return by exact Hb.
  pose proof (quiet__request_report env conn w0) as Q1.
  destruct (_request_report env conn w0) as [[rid | e |] w1] eqn:Hr;
    cbn [snd] in Q1; destruct Q1 as [Q1 _];
    [| left; erewrite bind_Raise by exact Hr; cbn [snd]; congruence
     | left; erewrite bind_OutOfFuel by exact Hr; cbn [snd]; congruence].
  erewrite bind_Return by exact Hr.
  pose proof (quiet_poll_for_report env fuel conn rid w1) as Q2.
  destruct (_poll_for_report env fuel conn rid w1)
    as [[report_id | e |] w2] eqn:Hp;
    cbn [snd] in Q2; destruct Q2 as [Q2 _];
    [| left; erewrite bind_Raise by exact Hp; cbn [snd]; congruence
     | left; erewrite bind_OutOfFuel by exact Hp; cbn [snd]; congruence].
  right. exists w2.
  split; [congruence |].
  erewrite bind_Return by exact Hp. reflexivity.
Qed.

(** The database after [_open_db] and the call that follows it. *)
Lemma open_db_then_call (w : World) :
  db (snd ((db_conn <- _open_db ;;
            @call_without unit "_process_report" "db_conn") w))
  = mkDatabase (Some (rows_or_empty (committed (db w))))
               (Some (rows_or_empty (committed (db w)))).
Proof.
  unfold bind. rewrite open_db_eq.
  destruct (committed (db w)); reflexivity.
Qed.

(** ** The store: claims C1, C4 and C5 *)

(** C1, as stated, fails: on a connection that sees an empty [purchases]
    table, writing the record [A-1/SKU1] a second time is not a no-op.  The
    INSERT is executed again, the table as the connection sees it holds two
    identical rows, and the call ends with an [AttributeError]. *)
Lemma C1_second_write_adds_a_duplicate :
  working (db (snd (write_to_db Scenario.a1 Scenario.db_conn Scenario.opened)))
  = Some [row_of Scenario.a1] /\
  working
    (db (snd (write_to_db Scenario.a1 Scenario.db_conn
                (snd (write_to_db Scenario.a1 Scenario.db_conn
                        Scenario.opened)))))
  = Some [row_of Scenario.a1; row_of Scenario.a1] /\
  fst (write_to_db Scenario.a1 Scenario.db_conn
         (snd (write_to_db Scenario.a1 Scenario.db_conn Scenario.opened)))
  = Raise (AttributeError "'sqlite3.Cursor' object has no attribute 'commit'").
Proof. repeat split. Qed.

(** C1, amended: on a connection that sees the [purchases] table with the
    rows [rows], [write_to_db] executes an unconditional INSERT.  The
    record is added to the table as seen through the connection whether or
    not a row with its (order_id, sku) is there already, so writing the
    same record twice leaves [rows] followed by two identical rows: the row
    count seen through the connection grows by one with each call. *)
Theorem C1_write_inserts_unconditionally
    (p : Purchase) (c : Connection) (w : World) (rows : list Row) :
  working (db w) = Some rows ->
  working (db (snd (write_to_db p c w))) = Some (rows ++ [row_of p]) /\
  working (db (snd (write_to_db p c (snd (write_to_db p c w)))))
  = Some (rows ++ [row_of p; row_of p]).
Proof.
  intros H.
  rewrite (write_to_db_spec p c w rows H). cbn [snd db working].
  split; [reflexivity |].
  rewrite (write_to_db_spec p c _ (rows ++ [row_of p])) by reflexivity.
  cbn [snd db working]. rewrite <- app_assoc. reflexivity.
Qed.

Lemma C1_write_inserts_unconditionally_witness :
  working (db Scenario.opened) = Some [] /\
  working
    (db (snd (write_to_db Scenario.a1 Scenario.db_conn
                (snd (write_to_db Scenario.a1 Scenario.db_conn
                        Scenario.opened)))))
  = Some ([] ++ [row_of Scenario.a1; row_of Scenario.a1]).
Proof.
  split; [reflexivity |].
  apply (C1_write_inserts_unconditionally Scenario.a1 Scenario.db_conn
           Scenario.opened []).
  reflexivity.
Defined.



(** C5, on the code: on the payload with the two well-formed messages A-1
    and A-2, [_process_report] builds the record of A-1, executes its
    INSERT and fails at [cursor.commit()] with an [AttributeError].  The
    record of A-2 is never built, nothing is returned and nothing is
    committed. *)
Theorem C5_stops_at_first_record
    (env : Env) conn report_id c (w : World) (rows : list Row) :
  get_report_result (remote env) report_id
  = Ok (WellFormed Scenario.two_orders) ->
  working (db w) = Some rows ->
  _process_report env conn report_id c w
  = (Raise (AttributeError "'sqlite3.Cursor' object has no attribute 'commit'"),
     mkWorld (log w ++ [EGetReport report_id; EFromstring;
                        EInsert (row_of Scenario.a1)])
             (mkDatabase (committed (db w))
                         (Some (rows ++ [row_of Scenario.a1])))).
Proof.
  intros Hreport Hw.
  rewrite (process_report_loop env conn report_id c w _ Hreport).
  change (findall ["Message"] Scenario.two_orders)
    with [Scenario.message "A-1" "2023-01-01T00:00:00"
            [Scenario.elem "SKU" "SKU1"];
          Scenario.message "A-2" "2023-01-02T00:00:00"
            [Scenario.elem "SKU" "SKU2"]].
  rewrite (for_messages_cons_complete _ _ c _ Scenario.a1) by reflexivity.
  erewrite bind_Raise;
    [| apply (write_to_db_spec Scenario.a1 c _ rows); exact Hw].
  cbn [log db]. rewrite <- app_assoc. reflexivity.
Qed.

Lemma C5_stops_at_first_record_witness :
  _process_report (Scenario.done_at_once Scenario.two_orders)
    Scenario.conn (PyStr "RPT1") Scenario.db_conn Scenario.opened
  = (Raise (AttributeError "'sqlite3.Cursor' object has no attribute 'commit'"),
     mkWorld ([] ++ [EGetReport (PyStr "RPT1"); EFromstring;
                     EInsert (row_of Scenario.a1)])
             (mkDatabase (committed (db Scenario.opened))
                         (Some ([] ++ [row_of Scenario.a1])))).
Proof.
  apply (C5_stops_at_first_record
           (Scenario.done_at_once Scenario.two_orders)
           Scenario.conn (PyStr "RPT1") Scenario.db_conn Scenario.opened []);
    reflexivity.
Defined.

(** ** The poller: claims C2, C3 and C8 *)

(** C2, on the code: when every status call would raise, the poller does
    not reach a fourth attempt, nor a first.  Reading [request_id] raises
    [NameError] before the call, the clause [except MWSError] raises
    [NameError] in its turn, and the poller ends with that exception: no
    status call, no retry, no wait. *)
Theorem C2_no_attempt_is_made
    (env : Env) (fuel : nat) conn rid (w : World) (detail : string) :
  (forall ids n,
      get_report_request_list_result (remote env) ids n
      = Fails (MWSError detail)) ->
  _poll_for_report env (S fuel) conn rid w
  = (Raise (NameError "MWSError" (Some (NameError "request_id" None))), w) /\
  status_calls (log (snd (_poll_for_report env (S fuel) conn rid w)))
  = status_calls (log w) /\
  sleeps (log (snd (_poll_for_report env (S fuel) conn rid w)))
  = sleeps (log w).
Proof.
  intros _. rewrite poll_for_report_eq. repeat split.
Qed.

Lemma C2_no_attempt_is_made_witness :
  (forall ids n,
      get_report_request_list_result (remote Scenario.status_always_fails)
        ids n
      = Fails (MWSError "503 Service Unavailable")) /\
  status_calls
    (log (snd (_poll_for_report Scenario.status_always_fails 4
                 Scenario.conn (PyStr "REQ1") Scenario.fresh)))
  = status_calls (log Scenario.fresh).
Proof.
  assert (H : forall ids n,
             get_report_request_list_result
               (remote Scenario.status_always_fails) ids n
             = Fails (MWSError "503 Service Unavailable")).
  { intros ids n. simpl. destruct n; reflexivity. }
  split; [exact H |].
  apply (C2_no_attempt_is_made Scenario.status_always_fails 3
           Scenario.conn (PyStr "REQ1") Scenario.fresh
           "503 Service Unavailable" H).
Defined.

(** C3, on the code: with the statuses SUBMITTED, IN_PROGRESS, IN_PROGRESS,
    DONE ready at the remote service, the poller makes no status call at
    all, not four: it ends with [NameError] and returns no report id. *)
Theorem C3_no_poll_no_report_id (fuel : nat) :
  _poll_for_report Scenario.done_at_fourth_poll (S fuel)
    Scenario.conn (PyStr "REQ1") Scenario.fresh
  = (Raise (NameError "MWSError" (Some (NameError "request_id" None))),
     Scenario.fresh) /\
  status_calls
    (log (snd (_poll_for_report Scenario.done_at_fourth_poll (S fuel)
                 Scenario.conn (PyStr "REQ1") Scenario.fresh)))
  = 0%nat.
Proof. split; reflexivity. Qed.

(** C8, as stated, fails: with the status IN_PROGRESS for ever the poller
    has ended although no poll was made and no time was waited, so no limit
    on either was exceeded; it ends with an uncaught [NameError], exactly
    as it does when every status call fails. *)
Lemma C8_never_done_ends_without_a_limit :
  _poll_for_report Scenario.never_done 10
    Scenario.conn (PyStr "REQ1") Scenario.fresh
  = (Raise (NameError "MWSError" (Some (NameError "request_id" None))),
     Scenario.fresh) /\
  status_calls
    (log (snd (_poll_for_report Scenario.never_done 10
                 Scenario.conn (PyStr "REQ1") Scenario.fresh)))
  = 0%nat /\
  sleeps
    (log (snd (_poll_for_report Scenario.never_done 10
                 Scenario.conn (PyStr "REQ1") Scenario.fresh)))
  = [] /\
  _poll_for_report Scenario.never_done 10
    Scenario.conn (PyStr "REQ1") Scenario.fresh
  = _poll_for_report Scenario.status_always_fails 10
      Scenario.conn (PyStr "REQ1") Scenario.fresh.
Proof. repeat split. Qed.

(** C8, amended: the poll loop has no limit on time or on the number of
    polls, and the poller has no TIMED_OUT outcome.  For every behaviour of
    the status call, also one that never reports DONE, the poller
    terminates, and it ends by returning a value or by a propagating
    exception. *)
Theorem C8_poller_terminates_without_limit
    (env : Env) (fuel : nat) conn rid (w : World) :
  fst (_poll_for_report env (S fuel) conn rid w) <> OutOfFuel /\
  ((exists v, fst (_poll_for_report env (S fuel) conn rid w) = Return v) \/
   (exists e, fst (_poll_for_report env (S fuel) conn rid w) = Raise e)).
Proof.
  rewrite poll_for_report_eq. cbn [fst].
  split; [discriminate |]. right. eexists. reflexivity.
Qed.

(** ** The run: claims C6, C7, C9 and C10 *)

(** C6: the process exits with status 0 exactly when the pipeline
    succeeds, and a failure exits non-zero.  On the code as it is written
    no run succeeds: every run ends with an uncaught exception, never
    through [sys.exit()], and the process exits with status 1. *)
Theorem C6_exit_status_zero_only_on_success
    (env : Env) (fuel : nat) (w : World) :
  (fst (run_script env (S fuel) w) = Some 0
   <-> exists a, fst (main env (S fuel) w) = Return a) /\
  (forall a, fst (main env (S fuel) w) <> Return a) /\
  fst (run_script env (S fuel) w) = Some 1.
Proof.
  destruct (main_ends env fuel w) as (e & l & E & Hexit & _).
  assert (R : fst (run_script env (S fuel) w) = Some 1).
  { unfold run_script. rewrite E.
    destruct e; try reflexivity. exfalso. apply (Hexit code eq_refl). }
  split; [| split].
  - rewrite R, E. cbn [fst]. split; [discriminate |].
    intros [a Ha]. discriminate.
  - intros a. rewrite E. discriminate.
  - exact R.
Qed.

(** C7: when [requestReport] is refused, the run ends inside
    [_request_report], right after the request call.  No status call is
    made, no report is fetched or parsed, no wait elapses and the store is
    as it was; the process exits with status 1, and the traceback on
    standard error shows the error of the request, followed by the
    [NameError] the clause [except MWSError] raised while handling it. *)
Theorem C7_refused_request_short_circuits
    (env : Env) (fuel : nat) (w : World) (detail : string) :
  has_credentials env = true ->
  (forall t s e,
      request_report_result (remote env) t s e = Fails (MWSError detail)) ->
  main env fuel w
  = (Raise (NameError "MWSError" (Some (MWSError detail))),
     mkWorld (log w ++ [ERequestReport "_GET_XML_ALL_ORDERS_DATA_BY_ORDER_DATE_"
                          (now env 1 - timedelta_days 7) (now env 0)])
             (db w)) /\
  status_calls (log (snd (main env fuel w))) = status_calls (log w) /\
  parser_calls (log (snd (main env fuel w))) = parser_calls (log w) /\
  sleeps (log (snd (main env fuel w))) = sleeps (log w) /\
  fst (run_script env fuel w) = Some 1 /\
  printed_on Stderr (log (snd (run_script env fuel w)))
  = printed_on Stderr (log w)
      ++ [[PTraceback (NameError "MWSError" (Some (MWSError detail)))]].
Proof.
  intros Hc Hr. unfold run_script.
  rewrite (main_request_fails env fuel w (MWSError detail) Hc Hr).
  cbn [fst snd log emit exit_status].
  rewrite status_calls_app, parser_calls_app, sleeps_app, !printed_on_app.
  simpl. rewrite !app_nil_r, !Nat.add_0_r. repeat split; reflexivity.
Qed.

Lemma C7_refused_request_short_circuits_witness :
  has_credentials Scenario.auth_failure = true /\
  (forall t s e,
      request_report_result (remote Scenario.auth_failure) t s e
      = Fails (MWSError "403 Forbidden")) /\
  status_calls (log (snd (main Scenario.auth_failure 4 Scenario.fresh)))
  = status_calls (log Scenario.fresh).
Proof.
  split; [reflexivity |]. split; [reflexivity |].
  apply (C7_refused_request_short_circuits Scenario.auth_failure 4
           Scenario.fresh "403 Forbidden");
    reflexivity.
Defined.

(** C9: every run fails, and what describes its failure is written to
    standard error only: the run ends with an uncaught exception whose
    traceback the interpreter prints there, and standard output receives
    nothing, since no [print] of the file is ever reached. *)
Theorem C9_diagnostics_go_to_stderr
    (env : Env) (fuel : nat) (w : World) :
  printed_on Stdout (log (snd (run_script env (S fuel) w)))
  = printed_on Stdout (log w) /\
  exists e,
    fst (main env (S fuel) w) = Raise e /\
    printed_on Stderr (log (snd (run_script env (S fuel) w)))
    = printed_on Stderr (log w) ++ [[PTraceback e]].
Proof.
  destruct (main_ends env fuel w) as (e & l & E & Hexit & Hl).
  assert (R : run_script env (S fuel) w
              = (Some 1,
                 emit (EPrint Stderr [PTraceback e])
                      (mkWorld (log w ++ l) (db w)))).
  { unfold run_script. rewrite E.
    destruct e; try reflexivity. exfalso. apply (Hexit code eq_refl). }
  rewrite R, E. cbn [fst snd emit log].
  rewrite !printed_on_app.
  destruct Hl as [-> | ->]; simpl; rewrite !app_nil_r;
    (split; [reflexivity |]); exists e; split; reflexivity.
Qed.

(** C10: [main] opens the database only after [_request_report] and
    [_poll_for_report] have both returned.  In every run that does not get
    that far, the store is as it was and no store operation (connect,
    create table, insert, commit) has taken place. *)
Theorem C10_store_untouched_before_open_db
    (env : Env) (fuel : nat) (w : World) :
  ~ reaches_open_db env fuel w ->
  db (snd (main env fuel w)) = db w /\
  db_events (log (snd (main env fuel w))) = db_events (log w).
Proof.
  intros Hn. unfold main.
  pose proof (quiet_build_mws env w) as Q0.
  destruct (_build_mws env w) as [[conn | e |] w0] eqn:Hb;
    cbn [snd] in Q0;
    [| erewrite bind_Raise by exact Hb; exact Q0
     | erewrite bind_OutOfFuel by exact Hb; exact Q0].
  erewrite bind_Return by exact Hb.
  pose proof (quiet__request_report env conn w0) as Q1.
  destruct Q0 as [Q0a Q0b].
  destruct (_request_report env conn w0) as [[rid | e |] w1] eqn:Hr;
    cbn [snd] in Q1; destruct Q1 as [Q1a Q1b];
    [| erewrite bind_Raise by exact Hr; cbn [snd]; split; congruence
     | erewrite bind_OutOfFuel by exact Hr; cbn [snd]; split; congruence].
  erewrite bind_Return by exact Hr.
  pose proof (quiet_poll_for_report env fuel conn rid w1) as Q2.
  destruct (_poll_for_report env fuel conn rid w1)
    as [[report_id | e |] w2] eqn:Hp;
    cbn [snd] in Q2; destruct Q2 as [Q2a Q2b];
    [| erewrite bind_Raise by exact Hp; cbn [snd]; split; congruence
     | erewrite bind_OutOfFuel by exact Hp; cbn [snd]; split; congruence].
  exfalso. apply Hn.
  exists conn, w0, rid, w1, report_id, w2. repeat split; assumption.
Qed.

Lemma C10_store_untouched_before_open_db_witness :
  ~ reaches_open_db Scenario.status_always_fails 4 Scenario.fresh /\
  db (snd (main Scenario.status_always_fails 4 Scenario.fresh))
  = db Scenario.fresh /\
  db_events (log (snd (main Scenario.status_always_fails 4 Scenario.fresh)))
  = db_events (log Scenario.fresh).
Proof.
  assert (H : ~ reaches_open_db Scenario.status_always_fails 4 Scenario.fresh).
  { intros (conn & w0 & rid & w1 & report_id & w2 & Hb & Hr & Hp).
    vm_compute in Hb. injection Hb as <- <-.
    vm_compute in Hr. injection Hr as <- <-.
    vm_compute in Hp. discriminate Hp. }
  split; [exact H |].
  apply (C10_store_untouched_before_open_db Scenario.status_always_fails 4
           Scenario.fresh H).
Defined.

(** ** Further properties of the store *)

(** [_open_db] on a database that has the [purchases] table returns the
    connection and keeps the committed rows (the [OperationalError] of
    CREATE TABLE is caught).  On a database without the table it creates
    the table, which persists, and then fails at [cursor.commit()] with an
    [AttributeError] that the clause for [OperationalError] does not
    catch.  Either way the connection starts from the committed state. *)
Theorem open_db_keeps_rows (w : World) :
  fst (_open_db w) = open_db_outcome (committed (db w)) /\
  committed (db (snd (_open_db w)))
  = Some (rows_or_empty (committed (db w))) /\
  working (db (snd (_open_db w))) = committed (db (snd (_open_db w))) /\
  db_events (log (snd (_open_db w)))
  = db_events (log w) ++ open_db_events (committed (db w)).
Proof.
  rewrite open_db_eq. cbn [fst snd db log committed working].
  repeat split. rewrite db_events_app. f_equal.
  destruct (committed (db w)); reflexivity.
Qed.

(** Opening the database a second time changes nothing in it. *)
Theorem open_db_idempotent (w : World) :
  db (snd (_open_db (snd (_open_db w)))) = db (snd (_open_db w)).
Proof. rewrite !open_db_eq. reflexivity. Qed.

(** Without the [purchases] table, [write_to_db] raises the
    [OperationalError] of the INSERT; nothing is committed and the world
    is as it was. *)
Theorem write_to_db_without_table (p : Purchase) (c : Connection) (w : World) :
  working (db w) = None ->
  write_to_db p c w
  = (Raise (OperationalError "no such table: purchases"), w).
Proof.
  intros H. unfold write_to_db, bind, execute_insert. rewrite H. reflexivity.
Qed.

Lemma write_to_db_without_table_witness :
  working (db Scenario.fresh) = None /\
  write_to_db Scenario.a1 Scenario.db_conn Scenario.fresh
  = (Raise (OperationalError "no such table: purchases"), Scenario.fresh).
Proof.
  split; [reflexivity |].
  apply (write_to_db_without_table Scenario.a1 Scenario.db_conn
           Scenario.fresh).
  reflexivity.
Defined.

(** ** Further properties of the report loop *)

(** On a report that parses, and a connection that sees the table,
    [_process_report] never gets past the first message.  Without messages
    it returns.  A first message with its three fields has its INSERT
    executed and the run fails at [cursor.commit()], the row left
    uncommitted; a first message lacking a field fails at [None.text]
    before any statement.  No later message is looked at. *)
Theorem process_report_stops_at_first_message
    (env : Env) conn report_id c (w : World) (rows : list Row)
    (root : Element) :
  get_report_result (remote env) report_id = Ok (WellFormed root) ->
  working (db w) = Some rows ->
  match findall ["Message"] root with
  | [] =>
      _process_report env conn report_id c w
      = (Return tt,
         mkWorld (log w ++ [EGetReport report_id; EFromstring]) (db w))
  | message :: _ =>
      match purchase_of message with
      | Some p =>
          _process_report env conn report_id c w
          = (Raise (AttributeError
                      "'sqlite3.Cursor' object has no attribute 'commit'"),
             mkWorld (log w ++ [EGetReport report_id; EFromstring;
                                EInsert (row_of p)])
                     (mkDatabase (committed (db w))
                                 (Some (rows ++ [row_of p]))))
      | None =>
          _process_report env conn report_id c w
          = (Raise (AttributeError
                      "'NoneType' object has no attribute 'text'"),
             mkWorld (log w ++ [EGetReport report_id; EFromstring]) (db w))
      end
  end.
Proof.
  intros Hreport Hw.
  rewrite (process_report_loop env conn report_id c w root Hreport).
  destruct (findall ["Message"] root) as [| message rest];
    [reflexivity |].
  destruct (purchase_of message) as [p |] eqn:Hp.
  - rewrite (for_messages_cons_complete message rest c _ p Hp).
    erewrite bind_Raise;
      [| apply (write_to_db_spec p c _ rows); exact Hw].
    cbn [log db]. rewrite <- app_assoc. reflexivity.
  - apply (for_messages_cons_incomplete message rest c _ Hp).
Qed.

Lemma process_report_stops_at_first_message_witness :
  _process_report (Scenario.done_at_once Scenario.two_orders)
    Scenario.conn (PyStr "RPT1") Scenario.db_conn Scenario.opened
  = (Raise (AttributeError "'sqlite3.Cursor' object has no attribute 'commit'"),
     mkWorld ([] ++ [EGetReport (PyStr "RPT1"); EFromstring;
                     EInsert (row_of Scenario.a1)])
             (mkDatabase (committed (db Scenario.opened))
                         (Some ([] ++ [row_of Scenario.a1])))).
Proof.
  apply (process_report_stops_at_first_message
           (Scenario.done_at_once Scenario.two_orders)
           Scenario.conn (PyStr "RPT1") Scenario.db_conn Scenario.opened []
           Scenario.two_orders);
    reflexivity.
Defined.

(** When the fetch of the report raises, whatever the exception, the
    clause [except MWSError] raises [NameError] in its place: the arm that
    prints and exits is not reached, nothing is parsed and the store is
    not touched. *)
Theorem process_report_fetch_fails
    (env : Env) conn report_id c (w : World) (e : exn) :
  get_report_result (remote env) report_id = Fails e ->
  _process_report env conn report_id c w
  = (Raise (NameError "MWSError" (Some e)),
     mkWorld (log w ++ [EGetReport report_id]) (db w)).
Proof.
  intros H. unfold _process_report.
  erewrite bind_Raise; [reflexivity |].
  unfold try_except, get_report, bind, tell. rewrite H. reflexivity.
Qed.

Lemma process_report_fetch_fails_witness :
  _process_report
    (Scenario.env_of
       (Scenario.service (Ok Scenario.request_response) []
          (Ok (Scenario.DONE "RPT1")) (Fails (MWSError "500"))))
    Scenario.conn (PyStr "RPT1") Scenario.db_conn Scenario.opened
  = (Raise (NameError "MWSError" (Some (MWSError "500"))),
     mkWorld ([] ++ [EGetReport (PyStr "RPT1")]) (db Scenario.opened)).
Proof.
  apply (process_report_fetch_fails
           (Scenario.env_of
              (Scenario.service (Ok Scenario.request_response) []
                 (Ok (Scenario.DONE "RPT1")) (Fails (MWSError "500"))))
           Scenario.conn (PyStr "RPT1") Scenario.db_conn Scenario.opened
           (MWSError "500")).
  reflexivity.
Defined.

(** A report body that is not well-formed XML makes [ET.fromstring] raise;
    the [ParseError] is not caught and the store is not touched. *)
Theorem process_report_not_well_formed
    (env : Env) conn report_id c (w : World) :
  get_report_result (remote env) report_id = Ok NotWellFormed ->
  _process_report env conn report_id c w
  = (Raise ParseError,
     mkWorld (log w ++ [EGetReport report_id; EFromstring]) (db w)).
Proof.
  intros H. unfold _process_report, try_except, get_report, fromstring.
  unfold bind, tell. rewrite H. simpl.
  unfold emit. simpl. rewrite <- app_assoc. reflexivity.
Qed.

Lemma process_report_not_well_formed_witness :
  _process_report
    (Scenario.env_of
       (Scenario.service (Ok Scenario.request_response) []
          (Ok (Scenario.DONE "RPT1")) (Ok NotWellFormed)))
    Scenario.conn (PyStr "RPT1") Scenario.db_conn Scenario.opened
  = (Raise ParseError,
     mkWorld ([] ++ [EGetReport (PyStr "RPT1"); EFromstring])
             (db Scenario.opened)).
Proof.
  apply (process_report_not_well_formed
           (Scenario.env_of
              (Scenario.service (Ok Scenario.request_response) []
                 (Ok (Scenario.DONE "RPT1")) (Ok NotWellFormed)))
           Scenario.conn (PyStr "RPT1") Scenario.db_conn Scenario.opened).
  reflexivity.
Defined.

(** [_process_report] never changes the committed table: whatever the
    remote service answers, whatever the payload and the state of the
    connection, what the file holds after the call is what it held
    before. *)
Theorem process_report_commits_nothing
    (env : Env) conn report_id c (w : World) :
  committed (db (snd (_process_report env conn report_id c w)))
  = committed (db w).
Proof.
  destruct (get_report_result (remote env) report_id)
    as [[root |] | e] eqn:H.
  - rewrite (process_report_loop env conn report_id c w root H).
    destruct (findall ["Message"] root) as [| message rest];
      [reflexivity |].
    apply (for_messages_raises message rest c
             (mkWorld (log w ++ [EGetReport report_id; EFromstring]) (db w))).
  - rewrite (process_report_parse_eq env conn report_id c w H). reflexivity.
  - rewrite (process_report_fetch_eq env conn report_id c w e H). reflexivity.
Qed.

(** A SKU element that is present but has no text is not taken for a
    missing field: its [text] is [None], the record is built and its
    INSERT is executed with a null SKU, before the run fails at
    [cursor.commit()]. *)
Theorem process_report_inserts_empty_sku
    (env : Env) conn report_id c (w : World) (rows : list Row)
    (order date : string) :
  get_report_result (remote env) report_id
  = Ok (WellFormed
          (Scenario.envelope
             [Scenario.message order date [Elem "SKU" None []]])) ->
  working (db w) = Some rows ->
  fst (_process_report env conn report_id c w)
  = Raise (AttributeError "'sqlite3.Cursor' object has no attribute 'commit'") /\
  working (db (snd (_process_report env conn report_id c w)))
  = Some (rows ++ [(PyStr order, PyStr date, PyNone)]).
Proof.
  intros Hreport Hw.
  rewrite (process_report_loop env conn report_id c w _ Hreport).
  change (findall ["Message"]
            (Scenario.envelope
               [Scenario.message order date [Elem "SKU" None []]]))
    with [Scenario.message order date [Elem "SKU" None []]].
  rewrite (for_messages_cons_complete _ _ c _
             (mkPurchase (PyStr order) (PyStr date) PyNone))
    by reflexivity.
  erewrite bind_Raise;
    [| apply (write_to_db_spec _ c _ rows); exact Hw].
  split; reflexivity.
Qed.

Lemma process_report_inserts_empty_sku_witness :
  working
    (db (snd (_process_report
                (Scenario.done_at_once
                   (Scenario.envelope
                      [Scenario.message "A-3" "2023-01-03T00:00:00"
                         [Elem "SKU" None []]]))
                Scenario.conn (PyStr "RPT1") Scenario.db_conn
                Scenario.opened)))
  = Some ([] ++ [(PyStr "A-3", PyStr "2023-01-03T00:00:00", PyNone)]).
Proof.
  apply (process_report_inserts_empty_sku
           (Scenario.done_at_once
              (Scenario.envelope
                 [Scenario.message "A-3" "2023-01-03T00:00:00"
                    [Elem "SKU" None []]]))
           Scenario.conn (PyStr "RPT1") Scenario.db_conn Scenario.opened []
           "A-3" "2023-01-03T00:00:00");
    reflexivity.
Defined.

(** ** Further properties of the request and of the poller *)

(** A request that is answered: [_request_report] makes one call, for the
    report type of the order data and the window from seven days before
    the second clock reading to the first clock reading, and its result is
    that of the three subscripts on the response: the request id, or the
    uncaught [KeyError] or [TypeError] of the first subscript that fails.
    Nothing is printed. *)
Theorem request_report_answered
    (env : Env) conn (w : World) (response : pyobj) :
  request_report_result (remote env) report_type
    (now env 1 - 7 * 86400) (now env 0)
  = Ok response ->
  _request_report env conn w
  = (match subscript response request_info with
     | Ok id => Return id
     | Fails e => Raise e
     end,
     mkWorld (log w ++ [ERequestReport report_type
                          (now env 1 - 7 * 86400) (now env 0)])
             (db w)).
Proof.
  intros H. unfold _request_report.
  pose proof (request_report_call env conn w response H) as E.
  rewrite (bind_Return _ _ _ _ _ E).
  rewrite getitem_subscripts. unfold request_info.
  destruct (subscript response
              ["ReportRequestInfo"; "ReportRequestId"; "value"]);
    reflexivity.
Qed.

Lemma request_report_answered_witness :
  _request_report Scenario.never_done Scenario.conn Scenario.fresh
  = (match subscript Scenario.request_response request_info with
     | Ok id => Return id
     | Fails e => Raise e
     end,
     mkWorld ([] ++ [ERequestReport report_type
                       (now Scenario.never_done 1 - 7 * 86400)
                       (now Scenario.never_done 0)])
             (db Scenario.fresh)).
Proof.
  apply (request_report_answered Scenario.never_done Scenario.conn
           Scenario.fresh Scenario.request_response).
  reflexivity.
Defined.

(** An exception of the request call, whatever its class, does not leave
    [_request_report] as it is: the clause [except MWSError] raises
    [NameError] in its place, with the exception of the call as context.
    The arm is not reached: nothing is printed and [sys.exit] is not
    called. *)
Theorem request_report_exception_replaced
    (env : Env) conn (w : World) (e : exn) :
  (forall t s d, request_report_result (remote env) t s d = Fails e) ->
  _request_report env conn w
  = (Raise (NameError "MWSError" (Some e)),
     mkWorld (log w ++ [ERequestReport report_type
                          (now env 1 - 7 * 86400) (now env 0)])
             (db w)).
Proof.
  intros H. unfold _request_report.
  erewrite bind_Raise; [reflexivity |].
  unfold try_except, request_report, bind, tell. rewrite H. reflexivity.
Qed.

Lemma request_report_exception_replaced_witness :
  _request_report
    (Scenario.env_of
       (Scenario.service (Fails (TypeError "bad argument")) []
          (Ok Scenario.IN_PROGRESS) (Ok NotWellFormed)))
    Scenario.conn Scenario.fresh
  = (Raise (NameError "MWSError" (Some (TypeError "bad argument"))),
     mkWorld ([] ++ [ERequestReport report_type
                       (1700000001 - 7 * 86400) 1700000000])
             (db Scenario.fresh)).
Proof.
  apply (request_report_exception_replaced
           (Scenario.env_of
              (Scenario.service (Fails (TypeError "bad argument")) []
                 (Ok Scenario.IN_PROGRESS) (Ok NotWellFormed)))
           Scenario.conn Scenario.fresh (TypeError "bad argument")).
  reflexivity.
Defined.

(** [_poll_for_report] makes no status call, never waits, prints nothing
    and never returns a report id, whatever the remote service would
    answer: it leaves the world as it was and ends with [NameError]. *)
Theorem poll_for_report_makes_no_call
    (env : Env) (fuel : nat) conn rid (w : World) :
  snd (_poll_for_report env (S fuel) conn rid w) = w /\
  (forall v, fst (_poll_for_report env (S fuel) conn rid w) <> Return v) /\
  (exists context,
      fst (_poll_for_report env (S fuel) conn rid w)
      = Raise (NameError "MWSError" context)).
Proof.
  rewrite poll_for_report_eq. cbn [fst snd].
  split; [reflexivity |]. split; [discriminate |].
  eexists. reflexivity.
Qed.

(** From any value of [retry_count] the loop of the poller terminates
    within two turns: it makes at most two status calls and waits at most
    once, for three seconds. *)
Theorem poll_loop_terminates
    (env : Env) (fuel : nat) conn rid (rc : Z) (w : World) :
  fst (poll_loop env (S (S fuel)) conn rid rc w) <> OutOfFuel /\
  (status_calls (log (snd (poll_loop env (S (S fuel)) conn rid rc w)))
   <= status_calls (log w) + 2)%nat /\
  (sleeps (log (snd (poll_loop env (S (S fuel)) conn rid rc w)))
   = sleeps (log w) \/
   sleeps (log (snd (poll_loop env (S (S fuel)) conn rid rc w)))
   = sleeps (log w) ++ [3]).
Proof.
  rewrite poll_loop_turn. cbn [fst snd].
  split; [discriminate |]. split; [lia | left; reflexivity].
Qed.

(** ** Further properties of the run *)

(** A run without one of the three credentials in its environment ends in
    [_build_mws] with the [KeyError] of the missing variable, before any
    call to the remote service and before the store is opened; the process
    exits with status 1. *)
Theorem main_missing_credentials (env : Env) (fuel : nat) (w : World) :
  has_credentials env = false ->
  (exists key,
      environ env key = None /\
      main env fuel w = (Raise (KeyError key), w)) /\
  fst (run_script env fuel w) = Some 1.
Proof.
  intros H.
  destruct (build_mws_missing env H) as (key & Hkey & Hb).
  assert (E : main env fuel w = (Raise (KeyError key), w)).
  { unfold main. apply bind_Raise. apply Hb. }
  split.
  - exists key. split; [exact Hkey | exact E].
  - unfold run_script. rewrite E. reflexivity.
Qed.

Lemma main_missing_credentials_witness :
  fst (run_script
         (mkEnv (fun name => if String.eqb name "MWS_SELLER_ID"
                             then None else Some "k")
                (fun _ => 1700000000)
                (remote Scenario.never_done))
         4 Scenario.fresh)
  = Some 1.
Proof.
  apply (main_missing_credentials
           (mkEnv (fun name => if String.eqb name "MWS_SELLER_ID"
                               then None else Some "k")
                  (fun _ => 1700000000)
                  (remote Scenario.never_done))
           4 Scenario.fresh).
  reflexivity.
Defined.

(** The stages of [main] before [_open_db] never touch the store, and
    [main] never gets past them. *)
Lemma main_before_open_db (env : Env) (fuel : nat) (w : World) :
  db (snd (main env fuel w)) = db w /\
  db_events (log (snd (main env fuel w))) = db_events (log w).
Proof.
  unfold main.
  pose proof (quiet_build_mws env w) as Q0.
  destruct (_build_mws env w) as [[conn | e |] w0] eqn:Hb;
    cbn [snd] in Q0;
    [| erewrite bind_Raise by exact Hb; exact Q0
     | erewrite bind_OutOfFuel by exact Hb; exact Q0].
  erewrite bind_Return by exact Hb.
  pose proof (quiet__request_report env conn w0) as Q1.
  destruct Q0 as [Q0a Q0b].
  destruct (_request_report env conn w0) as [[rid | e |] w1] eqn:Hr;
    cbn [snd] in Q1; destruct Q1 as [Q1a Q1b];
    [| erewrite bind_Raise by exact Hr; cbn [snd]; split; congruence
     | erewrite bind_OutOfFuel by exact Hr; cbn [snd]; split; congruence].
  erewrite bind_Return by exact Hr.
  pose proof (quiet_poll_for_report env fuel conn rid w1) as Q2.
  destruct (_poll_for_report env fuel conn rid w1)
    as [[report_id | e |] w2] eqn:Hp;
    cbn [snd] in Q2; destruct Q2 as [Q2a Q2b];
    [| erewrite bind_Raise by exact Hp; cbn [snd]; split; congruence
     | erewrite bind_OutOfFuel by exact Hp; cbn [snd]; split; congruence].
  exfalso. exact (poll_for_report_never_returns env fuel conn rid w1 _ _ Hp).
Qed.

(** No run of [main] reaches [_open_db]: the poller never returns, so the
    database is never opened, the report never fetched, and the store is
    after every run what it was before. *)
Theorem main_never_reaches_open_db (env : Env) (fuel : nat) (w : World) :
  ~ reaches_open_db env fuel w /\
  db (snd (main env fuel w)) = db w /\
  db_events (log (snd (main env fuel w))) = db_events (log w) /\
  parser_calls (log (snd (main env (S fuel) w))) = parser_calls (log w).
Proof.
  split; [| split; [| split]].
  - intros (conn & w0 & rid & w1 & report_id & w2 & _ & _ & Hp).
    exact (poll_for_report_never_returns env fuel conn rid w1 _ _ Hp).
  - apply main_before_open_db.
  - apply main_before_open_db.
  - destruct (main_ends env fuel w) as (e & l & E & _ & Hl).
    rewrite E. cbn [snd log]. rewrite parser_calls_app.
    destruct Hl as [-> | ->]; simpl; lia.
Qed.

(** A run never removes or rewrites a committed row: however it ends, the
    committed rows it started from are still there, in place, with new
    rows only after them. *)
Theorem main_only_appends (env : Env) (fuel : nat) (w : World) :
  exists added,
    rows_or_empty (committed (db (snd (main env fuel w))))
    = rows_or_empty (committed (db w)) ++ added.
Proof.
  destruct (main_cases env fuel w) as [H | (w2 & Hdb & H)].
  - exists []. rewrite H, app_nil_r. reflexivity.
  - exists []. rewrite H, open_db_then_call, Hdb, app_nil_r. reflexivity.
Qed.

(** After a run that got as far as opening the database, the committed
    table and the connection's view agree: no row is left uncommitted. *)
Theorem main_leaves_nothing_uncommitted (env : Env) (fuel : nat) (w : World) :
  db (snd (main env fuel w)) = db w \/
  (exists rows,
      db (snd (main env fuel w)) = mkDatabase (Some rows) (Some rows)).
Proof.
  destruct (main_cases env fuel w) as [H | (w2 & Hdb & H)].
  - left. exact H.
  - right. rewrite H, open_db_then_call. eexists. reflexivity.
Qed.
